(** * Skylens API: a shallow embedding of [api/main.py]

    The handlers of the FastAPI application are embedded as computations in
    a small state-and-exception monad over the ambient world of the process
    (the wall clock read by [health], the records written by [logging]).
    Pydantic models are records, [dict] values are finite maps from strings
    to Python values, [Optional[T]] is [option T], [float] is an IEEE-754
    binary64 number ([spec_float] of the Standard Library, precision 53). *)

From Stdlib Require Import ZArith String Ascii List Lia.
From Stdlib Require Import SpecFloat.
From stdpp Require Import base option list strings gmap.

Open Scope Z_scope.
Open Scope string_scope.

(** ** Python values *)

Module Py.

(** binary64: 53 bits of precision, exponents below 1024 *)
Definition prec : Z := 53.
Definition emax : Z := 1024.

(** the float written as an integer literal followed by [.0] *)
Definition float_of_Z (z : Z) : spec_float :=
  binary_normalize prec emax z 0 false.

(** a decimal literal [n/d] is the nearest binary64 to the quotient *)
Definition float_of_ratio (n d : Z) : spec_float :=
  SFdiv prec emax (float_of_Z n) (float_of_Z d).

(** [a < b] and [a <= b] on floats; both are false when a NaN is involved *)
Definition flt (a b : spec_float) : bool := SFltb a b.
Definition fle (a b : spec_float) : bool := SFleb a b.

(** builtin [max(a, b)]: the running maximum [a] is replaced by [b]
    only when [b > a] holds *)
Definition max (a b : spec_float) : spec_float := if flt a b then b else a.

(** builtin [min(a, b)]: the running minimum [a] is replaced by [b]
    only when [b < a] holds *)
Definition min (a b : spec_float) : spec_float := if flt b a then b else a.

(** the values stored in the dictionaries of the responses *)
Inductive val : Type :=
| None_ : val
| Str (s : string) : val
| Float (x : spec_float) : val.

Definition of_opt_str (o : option string) : val :=
  match o with Some s => Str s | None => None_ end.

Definition of_opt_float (o : option spec_float) : val :=
  match o with Some x => Float x | None => None_ end.

(** [str.upper] and [str.lower], on the ASCII letters *)
Definition ascii_upper (c : ascii) : ascii :=
  let n := N_of_ascii c in
  if ((97 <=? n) && (n <=? 122))%N then ascii_of_N (n - 32) else c.

Definition ascii_lower (c : ascii) : ascii :=
  let n := N_of_ascii c in
  if ((65 <=? n) && (n <=? 90))%N then ascii_of_N (n + 32) else c.

Fixpoint str_map (f : ascii -> ascii) (s : string) : string :=
  match s with
  | EmptyString => EmptyString
  | String c s' => String (f c) (str_map f s')
  end.

Definition upper : string -> string := str_map ascii_upper.
Definition lower : string -> string := str_map ascii_lower.

(** [s.startswith(p)] *)
Definition startswith (s p : string) : bool := String.prefix p s.

(** truth value of an [Optional[str]]: [None] and [""] are false *)
Definition truthy (o : option string) : bool :=
  match o with
  | None => false
  | Some s => negb (String.eqb s "")
  end.

End Py.

(** ** Exceptions, the ambient world and the handler monad *)

(** [HTTPException(status_code, detail)] is what the handlers raise;
    [RequestValidationError] is what the framework raises when the
    parameters of a request do not fit the signature of the handler (it
    lists the offending parameters). *)
Inductive exn : Type :=
| HTTPException (status_code : Z) (detail : string)
| RequestValidationError (params : list string).

(** a record written by [logging.error(f"<prefix>{e}")] *)
Record LogRecord : Type := LogError { log_prefix : string; log_exn : exn }.

Record World : Type := mkWorld {
  utcnow_iso : string;        (* datetime.utcnow().isoformat() *)
  log : list LogRecord        (* records emitted so far, oldest first *)
}.

Inductive outcome (A : Type) : Type :=
| Returned (a : A)
| Raised (e : exn).
Arguments Returned {A} a.
Arguments Raised {A} e.

Definition Handler (A : Type) : Type := World -> outcome A * World.

Definition ret {A} (a : A) : Handler A := fun w => (Returned a, w).

Definition raise {A} (e : exn) : Handler A := fun w => (Raised e, w).

Definition bind {A B} (m : Handler A) (f : A -> Handler B) : Handler B :=
  fun w =>
    match m w with
    | (Returned a, w') => f a w'
    | (Raised e, w') => (Raised e, w')
    end.

(** [try: m  except Exception as e: h e] *)
Definition try_except {A} (m : Handler A) (h : exn -> Handler A) : Handler A :=
  fun w =>
    match m w with
    | (Returned a, w') => (Returned a, w')
    | (Raised e, w') => h e w'
    end.

Definition logging_error (prefix : string) (e : exn) : Handler unit :=
  fun w => (Returned tt,
            {| utcnow_iso := utcnow_iso w;
               log := log w ++ [LogError prefix e] |}).

Definition now_iso : Handler string := fun w => (Returned (utcnow_iso w), w).

Declare Scope handler_scope.
Delimit Scope handler_scope with handler.
Notation "x <- m ;; k" := (bind m (fun x => k))
  (at level 100, m at next level, right associativity) : handler_scope.
Notation "m ;;; k" := (bind m (fun _ => k))
  (at level 100, right associativity) : handler_scope.
Open Scope handler_scope.

(** the value a computation returned, if it returned *)
Definition returned {A} (r : outcome A * World) : option A :=
  match fst r with Returned a => Some a | Raised _ => None end.

(** the status code the framework answers with *)
Definition status {A} (r : outcome A * World) : Z :=
  match fst r with
  | Returned _ => 200
  | Raised (HTTPException code _) => code
  | Raised (RequestValidationError _) => 422
  end.

(** ** Pydantic models *)

Module IntentRequest.
Record t : Type := mk {
  action : string;
  target : option string;
  speed : option spec_float
}.
End IntentRequest.

Module IntentResponse.
Record t : Type := mk {
  ok : bool;
  action : string;
  mapped : gmap string Py.val
}.
End IntentResponse.

Module NotamAnswer.
Record t : Type := mk {
  answer : string;
  citations : list string;
  matches : list (gmap string Py.val);
  provider : string
}.
End NotamAnswer.

(** ** GET /health *)

Definition health : Handler (gmap string Py.val) :=
  t <- now_iso ;;
  ret (<["status" := Py.Str "ok"]> (<["time" := Py.Str (t +:+ "Z")]> ∅)).

(** ** POST /ai/intent *)

Definition valid_actions : list string :=
  ["fly_to"; "orbit"; "follow"; "chase"; "set_layer"].

Definition zero_f : spec_float := Eval cbv in Py.float_of_Z 0.
Definition thousand_f : spec_float := Eval cbv in Py.float_of_Z 1000.

(** the body of the [try] block *)
Definition post_intent_body (request : IntentRequest.t)
  : Handler IntentResponse.t :=
  let action := IntentRequest.action request in
  let target := IntentRequest.target request in
  (if bool_decide (action ∈ valid_actions) then ret tt
   else raise (HTTPException 422 ("Invalid action: " +:+ action))) ;;;
  mapped_target <-
    (if bool_decide (action ∈ ["fly_to"; "orbit"]) then
       if negb (Py.truthy target)
          || negb (bool_decide (Py.upper <$> target = Some "EGLL"))
       then ret (Some "EGLL")
       else ret target
     else if bool_decide (action = "set_layer") then
       if negb (Py.truthy target)
          || negb (from_option (fun s => Py.startswith s "buildings:") false target)
       then raise (HTTPException 400
                     "set_layer requires target like 'buildings:on'")
       else ret (Py.lower <$> target)
     else ret target) ;;
  let mapped_speed :=
    match IntentRequest.speed request with
    | Some s => Some (Py.max zero_f (Py.min thousand_f s))
    | None => None
    end in
  ret {| IntentResponse.ok := true;
         IntentResponse.action := action;
         IntentResponse.mapped :=
           <["target" := Py.of_opt_str mapped_target]>
             (<["speed" := Py.of_opt_float mapped_speed]> ∅) |}.

Definition post_intent (request : IntentRequest.t) : Handler IntentResponse.t :=
  try_except (post_intent_body request)
    (fun e =>
       logging_error "Intent processing error: " e ;;;
       raise (HTTPException 500 "Intent processing failed")).

(** ** GET /ai/notam *)

Definition score_085 : spec_float := Eval cbv in Py.float_of_ratio 85 100.

(** the handler proper: [async def get_notam_answer(q, icao, k)] *)
Definition get_notam_answer (q icao : string) (k : Z)
  : Handler NotamAnswer.t :=
  ret {| NotamAnswer.answer :=
           "Demo response: No active runway closures reported for London Heathrow at this time. Standard operations are in effect.";
         NotamAnswer.citations := ["EGLL-2025-001"];
         NotamAnswer.matches :=
           [ <["id" := Py.Str "EGLL-2025-001"]>
               (<["icao" := Py.Str "EGLL"]>
                  (<["text" := Py.Str "Demo NOTAM: Standard runway operations in effect"]>
                     (<["score" := Py.Float score_085]> ∅))) ];
         NotamAnswer.provider := "demo" |}.

(** A query parameter declared [int] reaches the handler after the
    framework has coerced its text to an integer; the outcome of that
    coercion is the input of the model. *)
Inductive int_param : Type :=
| IntText (z : Z)
| NotInt (text : string).

(** the query string of a request to [/ai/notam]; [None] is a parameter
    the caller left out *)
Module NotamQuery.
Record t : Type := mk {
  q : option string;
  icao : option string;
  k : option int_param
}.
End NotamQuery.

(** a [str] parameter: its default, when it has one, stands in for a
    parameter left out; without a default the parameter is required *)
Definition bind_str (name : string) (default : option string)
    (raw : option string) : list string + string :=
  match raw, default with
  | Some s, _ => inr s
  | None, Some d => inr d
  | None, None => inl [name]
  end.

(** an [int] parameter *)
Definition bind_int (name : string) (default : option Z)
    (raw : option int_param) : list string + Z :=
  match raw, default with
  | Some (IntText z), _ => inr z
  | Some (NotInt _), _ => inl [name]
  | None, Some d => inr d
  | None, None => inl [name]
  end.

Definition errors_of {A} (r : list string + A) : list string :=
  match r with inl es => es | inr _ => [] end.

(** the signature [(q: str, icao: str = "EGLL", k: int = 5)] applied to a
    query string: the arguments of the call, or the parameters at fault *)
Definition notam_args (r : NotamQuery.t) : list string + (string * string * Z) :=
  let bq := bind_str "q" None (NotamQuery.q r) in
  let bi := bind_str "icao" (Some "EGLL") (NotamQuery.icao r) in
  let bk := bind_int "k" (Some 5) (NotamQuery.k r) in
  match bq, bi, bk with
  | inr q, inr icao, inr k => inr (q, icao, k)
  | _, _, _ => inl (errors_of bq ++ errors_of bi ++ errors_of bk)%list
  end.

(** the route [@app.get("/ai/notam")]: validation, then the handler *)
Definition route_ai_notam (r : NotamQuery.t) : Handler NotamAnswer.t :=
  match notam_args r with
  | inr (q, icao, k) => get_notam_answer q icao k
  | inl params => raise (RequestValidationError params)
  end.

(** ** Observations on responses *)

(** the provider tags of the response contract *)
Definition provider_tags : list string :=
  ["local"; "azure"; "local-fallback"; "demo"].

(** the matches of an answer, and how many there are *)
Definition matches_of (r : outcome NotamAnswer.t * World)
  : option (list (gmap string Py.val)) :=
  NotamAnswer.matches <$> returned r.



(** a citation is backed by a match when it is the [id] of one *)
Definition cited_in (c : string) (ms : list (gmap string Py.val)) : Prop :=
  ∃ m : gmap string Py.val, m ∈ ms ∧ m !! "id" = Some (Py.Str c).

(** [k] is in the documented range of the request *)
Definition k_in_range (k : Z) : Prop := 1 <= k <= 20.

(** a float lies in the closed interval from 0 to 1000 *)
Definition in_speed_range (x : spec_float) : Prop :=
  Py.fle zero_f x = true ∧ Py.fle x thousand_f = true.

(** a world and requests to run the handlers on *)
Definition world0 : World :=
  {| utcnow_iso := "2025-08-13T09:20:00"; log := [] |}.

Definition world1 : World :=
  {| utcnow_iso := "2026-01-01T00:00:00";
     log := [LogError "Intent processing error: "
               (HTTPException 422 "Invalid action: dance")] |}.

(** a request to follow a flight at speed 5000.0, and its response *)
Definition intent_follow : IntentRequest.t :=
  {| IntentRequest.action := "follow";
     IntentRequest.target := Some "BAW123";
     IntentRequest.speed := Some (Py.float_of_Z 5000) |}.

Definition intent_follow_response : IntentResponse.t :=
  {| IntentResponse.ok := true;
     IntentResponse.action := "follow";
     IntentResponse.mapped :=
       <["target" := Py.Str "BAW123"]> (<["speed" := Py.Float thousand_f]> ∅) |}.

(** a question about an airport outside the curated data, and questions
    with a result count outside the documented range *)
Definition query_zzzz : NotamQuery.t :=
  {| NotamQuery.q := Some "Any runway closures?";
     NotamQuery.icao := Some "ZZZZ";
     NotamQuery.k := Some (IntText 5) |}.

Definition query_k_zero : NotamQuery.t :=
  {| NotamQuery.q := Some "Any runway closures?";
     NotamQuery.icao := None;
     NotamQuery.k := Some (IntText 0) |}.

Definition query_k_text : NotamQuery.t :=
  {| NotamQuery.q := Some "Any runway closures?";
     NotamQuery.icao := None;
     NotamQuery.k := Some (NotInt "five") |}.

(** a request is ill-formed when the required [q] is missing or the text
    of [k] is not an integer *)
Definition ill_formed (r : NotamQuery.t) : Prop :=
  NotamQuery.q r = None ∨ ∃ t, NotamQuery.k r = Some (NotInt t).

(** the 4xx status codes *)
Definition client_error (code : Z) : Prop := 400 <= code < 500.

(** ** GET /weather/metar *)

Module MetarResponse.
Record t : Type := mk {
  icao : string;
  raw : string;
  observed : string;
  provider : string;
  cache_hit : option bool;
  cache_age_sec : option Z
}.
End MetarResponse.

(** the handler proper: [async def get_metar(icao)] *)
Definition get_metar (icao : string) : Handler MetarResponse.t :=
  ret {| MetarResponse.icao := Py.upper icao;
         MetarResponse.raw :=
           "EGLL 130920Z 25008KT 9999 FEW035 SCT250 12/08 Q1023 NOSIG=";
         MetarResponse.observed := "2025-08-13T09:20:00Z";
         MetarResponse.provider := "demo";
         MetarResponse.cache_hit := Some false;
         MetarResponse.cache_age_sec := Some 0 |}.

(** the route [@app.get("/weather/metar")] with the signature
    [(icao: str = "EGLL")] *)
Definition route_weather_metar (icao : option string)
  : Handler MetarResponse.t :=
  match bind_str "icao" (Some "EGLL") icao with
  | inr i => get_metar i
  | inl params => raise (RequestValidationError params)
  end.

(** ** More string methods *)

Module PyStr.

(** the ASCII characters [str.isspace] accepts: tab to carriage return,
    the four separators 28 to 31, and the space *)
Definition is_space (c : ascii) : bool :=
  let n := N_of_ascii c in
  (((9 <=? n) && (n <=? 13)) || ((28 <=? n) && (n <=? 32)))%N.

Fixpoint lstrip (s : string) : string :=
  match s with
  | EmptyString => EmptyString
  | String c s' => if is_space c then lstrip s' else s
  end.

Fixpoint rstrip (s : string) : string :=
  match s with
  | EmptyString => EmptyString
  | String c s' =>
      match rstrip s' with
      | EmptyString => if is_space c then EmptyString else String c EmptyString
      | r => String c r
      end
  end.

(** [s.strip()] *)
Definition strip (s : string) : string := rstrip (lstrip s).

(** [s.split(sep)] for a separator of one character: every occurrence
    splits, empty pieces are kept *)
Fixpoint split (sep : ascii) (s : string) : list string :=
  match s with
  | EmptyString => [EmptyString]
  | String c s' =>
      if Ascii.eqb c sep then EmptyString :: split sep s'
      else match split sep s' with
           | piece :: rest => String c piece :: rest
           | [] => [String c EmptyString]
           end
  end.

(** [sep.join(pieces)] for a separator of one character *)
Fixpoint join (sep : ascii) (pieces : list string) : string :=
  match pieces with
  | [] => EmptyString
  | [p] => p
  | p :: rest => p +:+ String sep (join sep rest)
  end.

(** how often a character occurs in a string *)
Fixpoint count (c : ascii) (s : string) : nat :=
  match s with
  | EmptyString => O
  | String d s' => (if Ascii.eqb d c then 1 else 0)%nat + count c s'
  end.

(** the first and the last character of a string *)
Definition first (s : string) : option ascii :=
  match s with EmptyString => None | String c _ => Some c end.

Fixpoint last (s : string) : option ascii :=
  match s with
  | EmptyString => None
  | String c EmptyString => Some c
  | String _ s' => last s'
  end.

(** no whitespace anywhere in the string *)
Fixpoint no_space (s : string) : bool :=
  match s with
  | EmptyString => true
  | String c s' => negb (is_space c) && no_space s'
  end.

(** the string holds ASCII characters only; on such strings the case
    mappings and the whitespace test above are those of [str] *)
Fixpoint is_ascii (s : string) : bool :=
  match s with
  | EmptyString => true
  | String c s' => (N_of_ascii c <? 128)%N && is_ascii s'
  end.

End PyStr.

(** ** [api/config.py] *)

Module AppConfig.

Record t : Type := mk {
  allow_origins : string;
  metar_provider : string;
  avwx_api_key : option string;
  aoai_endpoint : option string;
  aoai_api_key : option string;
  aoai_api_version : string;
  aoai_deployment_chat : string;
  aoai_deployment_embed : string;
  rag_provider : string;
  keyvault_name : option string;
  log_level : string
}.

(** the field defaults of the class *)
Definition defaults : t :=
  {| allow_origins := "*";
     metar_provider := "awc";
     avwx_api_key := None;
     aoai_endpoint := None;
     aoai_api_key := None;
     aoai_api_version := "2024-08-01-preview";
     aoai_deployment_chat := "gpt-4o";
     aoai_deployment_embed := "text-embedding-3-small";
     rag_provider := "local";
     keyvault_name := None;
     log_level := "INFO" |}.

(** [a and b] on two [Optional[str]]: [a] when [a] is false, else [b] *)
Definition and_ (a b : option string) : option string :=
  if Py.truthy a then b else a.

(** property [cors_origins] *)
Definition cors_origins (self : t) : list string :=
  if String.eqb (allow_origins self) "*" then ["*"]
  else PyStr.strip <$> PyStr.split "," (allow_origins self).

(** property [has_aoai] *)
Definition has_aoai (self : t) : bool :=
  Py.truthy (and_ (aoai_endpoint self) (aoai_api_key self)).

(** property [has_avwx] *)
Definition has_avwx (self : t) : bool :=
  Py.truthy (avwx_api_key self).

End AppConfig.

(** ** Observations on intent responses *)

(** the clamp of [post_intent] *)
Definition clamp_speed (s : spec_float) : spec_float :=
  Py.max zero_f (Py.min thousand_f s).

(** the target and the speed an intent response carries *)
Definition mapped_target (resp : IntentResponse.t) : option string :=
  match IntentResponse.mapped resp !! "target" with
  | Some (Py.Str s) => Some s
  | _ => None
  end.

Definition mapped_speed (resp : IntentResponse.t) : option spec_float :=
  match IntentResponse.mapped resp !! "speed" with
  | Some (Py.Float x) => Some x
  | _ => None
  end.

(** the request that sends the mapped target and speed of a response
    back, under the same action *)
Definition resubmit (resp : IntentResponse.t) : IntentRequest.t :=
  {| IntentRequest.action := IntentResponse.action resp;
     IntentRequest.target := mapped_target resp;
     IntentRequest.speed := mapped_speed resp |}.

(** requests and a configuration to run the code on *)
Definition intent_fly_lower : IntentRequest.t :=
  {| IntentRequest.action := "fly_to";
     IntentRequest.target := Some "egll";
     IntentRequest.speed := None |}.

Definition intent_layer : IntentRequest.t :=
  {| IntentRequest.action := "set_layer";
     IntentRequest.target := Some "buildings:ON";
     IntentRequest.speed := Some S754_nan |}.

Definition intent_chase : IntentRequest.t :=
  {| IntentRequest.action := "chase";
     IntentRequest.target := None;
     IntentRequest.speed := Some (Py.float_of_Z 250) |}.

Definition config_two_origins : AppConfig.t :=
  {| AppConfig.allow_origins := " https://a.example , https://b.example";
     AppConfig.metar_provider := "avwx";
     AppConfig.avwx_api_key := Some "";
     AppConfig.aoai_endpoint := Some "https://aoai.example";
     AppConfig.aoai_api_key := Some "key";
     AppConfig.aoai_api_version := "2024-08-01-preview";
     AppConfig.aoai_deployment_chat := "gpt-4o";
     AppConfig.aoai_deployment_embed := "text-embedding-3-small";
     AppConfig.rag_provider := "azure";
     AppConfig.keyvault_name := None;
     AppConfig.log_level := "INFO" |}.

(** ** The corpus the retrieval contract speaks of *)

(** the one record [get_notam_answer] returns *)
Definition demo_record : gmap string Py.val :=
  <["id" := Py.Str "EGLL-2025-001"]>
    (<["icao" := Py.Str "EGLL"]>
       (<["text" := Py.Str "Demo NOTAM: Standard runway operations in effect"]>
          (<["score" := Py.Float score_085]> ∅))).



(** ** The text of a log record *)

(** the message [f"<prefix>{e}"] of a record, given how the framework
    renders an exception as text ([str(e)]) *)
Definition log_message (render : exn -> string) (r : LogRecord) : string :=
  log_prefix r +:+ render (log_exn r).

(** * Properties *)

(** ** The handler monad *)

Lemma bind_returned {A B} (m : Handler A) (f : A -> Handler B) w a w' :
  m w = (Returned a, w') -> bind m f w = f a w'.
Proof. intros E. unfold bind. now rewrite E. Qed.

Lemma bind_raised {A B} (m : Handler A) (f : A -> Handler B) w e w' :
  m w = (Raised e, w') -> bind m f w = (Raised e, w').
Proof. intros E. unfold bind. now rewrite E. Qed.

Lemma try_except_returned {A} (m : Handler A) h w a w' :
  m w = (Returned a, w') -> try_except m h w = (Returned a, w').
Proof. intros E. unfold try_except. now rewrite E. Qed.

Lemma try_except_raised {A} (m : Handler A) h w e w' :
  m w = (Raised e, w') -> try_except m h w = h e w'.
Proof. intros E. unfold try_except. now rewrite E. Qed.

(** ** Floats *)

Lemma flt_fle a b : Py.flt a b = true -> Py.fle a b = true.
Proof.
  unfold Py.flt, Py.fle, SFltb, SFleb.
  destruct (SFcompare a b) as [[ | | ] | ]; congruence.
Qed.

(** Clamping puts every float, the infinities and NaN included, between
    0.0 and 1000.0. *)
Lemma clamp_in_speed_range s :
  in_speed_range (Py.max zero_f (Py.min thousand_f s)).
Proof.
  unfold Py.min. destruct (Py.flt s thousand_f) eqn:Hhi.
  - unfold Py.max. destruct (Py.flt zero_f s) eqn:Hlo.
    + split; now apply flt_fle.
    + split; reflexivity.
  - split; reflexivity.
Qed.

(** The clamped value is the speed itself when it lies strictly between
    the bounds, and one of the bounds otherwise. *)
Lemma clamp_cases s :
  let r := Py.max zero_f (Py.min thousand_f s) in
  (Py.flt zero_f s = true ∧ Py.flt s thousand_f = true ∧ r = s)
  ∨ (Py.flt zero_f s = false ∧ Py.flt s thousand_f = true ∧ r = zero_f)
  ∨ (Py.flt s thousand_f = false ∧ r = thousand_f).
Proof.
  cbv zeta. unfold Py.min. destruct (Py.flt s thousand_f) eqn:Hhi.
  - unfold Py.max. destruct (Py.flt zero_f s) eqn:Hlo; auto.
  - right. right. split; reflexivity.
Qed.

(** ** POST /ai/intent *)

(** The handler of the [except] clause: one record logged, then a 500. *)
Lemma post_intent_on_raise request w e w' :
  post_intent_body request w = (Raised e, w') ->
  post_intent request w =
    (Raised (HTTPException 500 "Intent processing failed"),
     {| utcnow_iso := utcnow_iso w';
        log := log w' ++ [LogError "Intent processing error: " e] |}).
Proof.
  intros E. unfold post_intent. rewrite (try_except_raised _ _ _ _ _ E).
  reflexivity.
Qed.

Lemma post_intent_on_return request w resp w' :
  post_intent_body request w = (Returned resp, w') ->
  post_intent request w = (Returned resp, w').
Proof. intros E. unfold post_intent. now apply try_except_returned. Qed.

Lemma body_invalid_action request w :
  IntentRequest.action request ∉ valid_actions ->
  post_intent_body request w =
    (Raised (HTTPException 422
               ("Invalid action: " +:+ IntentRequest.action request)), w).
Proof.
  intros Hnot. unfold post_intent_body.
  rewrite bool_decide_eq_false_2 by exact Hnot. reflexivity.
Qed.

Lemma body_bad_layer request w :
  IntentRequest.action request = "set_layer" ->
  from_option (fun s => Py.startswith s "buildings:") false
    (IntentRequest.target request) = false ->
  post_intent_body request w =
    (Raised (HTTPException 400
               "set_layer requires target like 'buildings:on'"), w).
Proof.
  intros Ha Ht. unfold post_intent_body. rewrite Ha, Ht.
  rewrite orb_true_r. reflexivity.
Qed.

(** What the body returns carries the clamped speed under ["speed"]. *)
Lemma body_speed request w resp w' :
  post_intent_body request w = (Returned resp, w') ->
  IntentResponse.mapped resp !! "speed" =
    Some (Py.of_opt_float
            ((fun s => Py.max zero_f (Py.min thousand_f s))
               <$> IntentRequest.speed request)).
Proof.
  unfold post_intent_body, bind, ret, raise.
  repeat match goal with
         | |- context [if ?b then _ else _] => destruct b
         end;
    intros E; inversion E; subst; simpl;
    (rewrite lookup_insert_ne by discriminate);
    rewrite lookup_insert_eq;
    destruct (IntentRequest.speed request); reflexivity.
Qed.

(** C9. Every HTTP error raised inside the [try] block of [post_intent]
    reaches the caller with status 500: whatever the body raises, the
    handler answers 500, and it raises nothing but that 500. In particular
    an action outside the five valid ones (a 422 inside the handler) and a
    [set_layer] request whose target does not start with ["buildings:"]
    (a 400 inside the handler) are both answered with 500. *)
Theorem post_intent_errors_surface_as_500 (request : IntentRequest.t) (w : World) :
  (∀ e, fst (post_intent_body request w) = Raised e ->
        status (post_intent request w) = 500)
  ∧ (∀ e, fst (post_intent request w) = Raised e ->
          e = HTTPException 500 "Intent processing failed")
  ∧ (IntentRequest.action request ∉ valid_actions ->
     fst (post_intent_body request w) =
       Raised (HTTPException 422
                 ("Invalid action: " +:+ IntentRequest.action request))
     ∧ status (post_intent request w) = 500)
  ∧ (IntentRequest.action request = "set_layer" ->
     from_option (fun s => Py.startswith s "buildings:") false
       (IntentRequest.target request) = false ->
     fst (post_intent_body request w) =
       Raised (HTTPException 400
                 "set_layer requires target like 'buildings:on'")
     ∧ status (post_intent request w) = 500).
Proof.
  assert (Hbody : ∀ e, fst (post_intent_body request w) = Raised e ->
                       status (post_intent request w) = 500).
  { intros e He. destruct (post_intent_body request w) as [o w'] eqn:E.
    simpl in He. subst o. now rewrite (post_intent_on_raise _ _ _ _ E). }
  split; [exact Hbody | split; [ | split]].
  - intros e He. destruct (post_intent_body request w) as [[resp | e'] w'] eqn:E.
    + rewrite (post_intent_on_return _ _ _ _ E) in He. discriminate.
    + rewrite (post_intent_on_raise _ _ _ _ E) in He. simpl in He. congruence.
  - intros Hnot. pose proof (body_invalid_action request w Hnot) as E.
    split; [now rewrite E | eapply Hbody; now rewrite E].
  - intros Ha Ht. pose proof (body_bad_layer request w Ha Ht) as E.
    split; [now rewrite E | eapply Hbody; now rewrite E].
Qed.

(** An unknown action and a [set_layer] on another layer are answered 500. *)
Lemma post_intent_errors_surface_as_500_witness :
  status (post_intent (IntentRequest.mk "dance" None None) world0) = 500
  ∧ status (post_intent
              (IntentRequest.mk "set_layer" (Some "terrain:on") None) world0) = 500.
Proof.
  split.
  - apply (proj1 (proj2 (proj2
      (post_intent_errors_surface_as_500
         (IntentRequest.mk "dance" None None) world0)))).
    apply (bool_decide_unpack _). vm_compute. exact I.
  - apply (proj2 (proj2 (proj2
      (post_intent_errors_surface_as_500
         (IntentRequest.mk "set_layer" (Some "terrain:on") None) world0)))).
    + reflexivity.
    + reflexivity.
Defined.

(** C10. When [post_intent] succeeds on a request that carries a speed
    [s], the mapped speed is [max(0.0, min(1000.0, s))] and lies in the
    closed interval from 0 to 1000; when the request carries no speed,
    the mapped speed is [None]. *)
Theorem post_intent_speed_clamped (request : IntentRequest.t) (w : World)
    (resp : IntentResponse.t) :
  returned (post_intent request w) = Some resp ->
  match IntentRequest.speed request with
  | Some s =>
      IntentResponse.mapped resp !! "speed" =
        Some (Py.Float (Py.max zero_f (Py.min thousand_f s)))
      ∧ in_speed_range (Py.max zero_f (Py.min thousand_f s))
  | None => IntentResponse.mapped resp !! "speed" = Some Py.None_
  end.
Proof.
  intros Hret.
  destruct (post_intent_body request w) as [[resp' | e] w'] eqn:E.
  - rewrite (post_intent_on_return _ _ _ _ E) in Hret.
    unfold returned in Hret. simpl in Hret. inversion Hret; subst resp'.
    pose proof (body_speed _ _ _ _ E) as Hs.
    destruct (IntentRequest.speed request) as [s | ]; simpl in Hs.
    + split; [exact Hs | apply clamp_in_speed_range].
    + exact Hs.
  - rewrite (post_intent_on_raise _ _ _ _ E) in Hret. discriminate.
Qed.

(** A speed of 5000.0 is mapped to 1000.0. *)
Lemma post_intent_speed_clamped_witness :
  IntentResponse.mapped intent_follow_response !! "speed" =
    Some (Py.Float (Py.max zero_f (Py.min thousand_f (Py.float_of_Z 5000))))
  ∧ in_speed_range (Py.max zero_f (Py.min thousand_f (Py.float_of_Z 5000))).
Proof.
  apply (post_intent_speed_clamped intent_follow world0 intent_follow_response).
  vm_compute. reflexivity.
Defined.

(** ** GET /ai/notam *)

(** The handler returns the same answer for all arguments, in any world,
    and leaves the world as it found it. *)
Lemma get_notam_answer_constant q icao k w :
  get_notam_answer q icao k w = (fst (get_notam_answer "" "" 0 world0), w).
Proof. reflexivity. Qed.

Lemma route_ai_notam_well_formed r w q icao k :
  notam_args r = inr (q, icao, k) ->
  route_ai_notam r w = get_notam_answer q icao k w.
Proof. intros E. unfold route_ai_notam. now rewrite E. Qed.

Lemma route_ai_notam_rejected r w params :
  notam_args r = inl params ->
  route_ai_notam r w = (Raised (RequestValidationError params), w).
Proof. intros E. unfold route_ai_notam. now rewrite E. Qed.

Lemma notam_args_ill_formed r :
  ill_formed r <-> ∃ params, notam_args r = inl params.
Proof.
  destruct r as [[q | ] [icao | ] [[z | t] | ]]; unfold ill_formed; simpl;
    split;
    try (intros _; eexists; reflexivity);
    try (intros [H | [t' H]]; discriminate);
    try (intros [p H]; discriminate);
    try (intros _; now left);
    try (intros _; right; now eexists).
Qed.

(** C1. For every question, airport code and result count, and in every
    world, [get_notam_answer] returns an answer (a [NotamAnswer] record:
    answer text, citations, matches, provider tag); it raises nothing, the
    caller sees status 200, and the world is left unchanged. *)
Theorem get_notam_answer_always_answers (q icao : string) (k : Z) (w : World) :
  (∃ a : NotamAnswer.t, get_notam_answer q icao k w = (Returned a, w))
  ∧ (∀ e, fst (get_notam_answer q icao k w) ≠ Raised e)
  ∧ status (get_notam_answer q icao k w) = 200.
Proof.
  split; [ | split].
  - eexists. reflexivity.
  - intros e. rewrite get_notam_answer_constant. discriminate.
  - reflexivity.
Qed.

(** C2. In every answer returned by [get_notam_answer], each identifier
    of the citations list is the [id] of some element of the matches
    list. *)
Theorem citations_are_match_ids (q icao : string) (k : Z) (w : World)
    (a : NotamAnswer.t) :
  returned (get_notam_answer q icao k w) = Some a ->
  ∀ c, c ∈ NotamAnswer.citations a -> cited_in c (NotamAnswer.matches a).
Proof.
  rewrite get_notam_answer_constant. intros Ha. inversion Ha; subst a; clear Ha.
  intros c Hc. simpl in Hc. apply list_elem_of_singleton in Hc. subst c.
  eexists. split; [apply list_elem_of_here | reflexivity].
Qed.

(** The one citation of the answer to a question about Heathrow is the
    identifier of its one match. *)
Lemma citations_are_match_ids_witness :
  cited_in "EGLL-2025-001"
    (default [] (matches_of (get_notam_answer "Any runway closures?" "EGLL" 5 world0))).
Proof.
  apply (citations_are_match_ids "Any runway closures?" "EGLL" 5 world0
           (default (NotamAnswer.mk "" [] [] "")
              (returned (get_notam_answer "Any runway closures?" "EGLL" 5 world0)))
           eq_refl "EGLL-2025-001").
  apply list_elem_of_here.
Defined.

(** C3, as the claim states it, fails: the answer to a question about
    the airport ZZZZ does not have an empty match sequence. *)
Lemma zzzz_matches_not_empty :
  matches_of (get_notam_answer "Any runway closures?" "ZZZZ" 5 world0) ≠ Some [].
Proof. vm_compute. discriminate. Qed.

(** C3, amended. For the airport code ZZZZ and any question,
    [get_notam_answer] raises nothing and returns the fixed demonstration
    answer, the one it returns for every airport code: the demo answer
    text, the citation EGLL-2025-001, a match sequence holding the single
    record EGLL-2025-001 of airport EGLL, and the provider tag ["demo"]. *)
Theorem zzzz_gets_the_demo_answer (q icao : string) (k : Z) (w : World) :
  get_notam_answer q "ZZZZ" k w =
    (Returned
       {| NotamAnswer.answer :=
            "Demo response: No active runway closures reported for London Heathrow at this time. Standard operations are in effect.";
          NotamAnswer.citations := ["EGLL-2025-001"];
          NotamAnswer.matches := [demo_record];
          NotamAnswer.provider := "demo" |},
     w)
  ∧ get_notam_answer q "ZZZZ" k w = get_notam_answer q icao k w
  ∧ demo_record !! "id" = Some (Py.Str "EGLL-2025-001")
  ∧ demo_record !! "icao" = Some (Py.Str "EGLL")
  ∧ demo_record !! "text"
    = Some (Py.Str "Demo NOTAM: Standard runway operations in effect")
  ∧ demo_record !! "score" = Some (Py.Float score_085)
  ∧ dom demo_record = ({["id"; "icao"; "text"; "score"]} : gset string).
Proof.
  split; [reflexivity | split; [reflexivity | ]].
  unfold demo_record.
  split; [apply lookup_insert_eq | ].
  split; [rewrite lookup_insert_ne by discriminate; apply lookup_insert_eq | ].
  split; [do 2 (rewrite lookup_insert_ne by discriminate);
          apply lookup_insert_eq | ].
  split; [do 3 (rewrite lookup_insert_ne by discriminate);
          apply lookup_insert_eq | ].
  rewrite !dom_insert_L, dom_empty_L. set_solver.
Qed.




(** The clock is part of the world: [health] answers differently in
    worlds whose clocks differ. *)
Lemma health_reads_the_clock : fst (health world0) ≠ fst (health world1).
Proof. vm_compute. intros H. inversion H. Qed.

(** C5. [get_notam_answer] is deterministic: for a fixed question,
    airport code and [k], invocations in any two worlds (whatever the
    clock shows and whatever has been logged) produce the same result, hence
    the same answer text, the same citations in the same order and the same
    matches in the same order; an invocation leaves the world as it found
    it, so a second invocation after the first sees the same world. *)
Theorem get_notam_answer_deterministic (q icao : string) (k : Z) (w1 w2 : World) :
  fst (get_notam_answer q icao k w1) = fst (get_notam_answer q icao k w2)
  ∧ snd (get_notam_answer q icao k w1) = w1
  ∧ get_notam_answer q icao k (snd (get_notam_answer q icao k w1)) =
    get_notam_answer q icao k w1.
Proof. repeat split. Qed.

(** C6. In every response of the NOTAM route that carries an answer,
    the provider field is one of ["local"], ["azure"], ["local-fallback"]
    and ["demo"]. *)
Theorem provider_is_a_known_tag (r : NotamQuery.t) (w : World) (a : NotamAnswer.t) :
  returned (route_ai_notam r w) = Some a ->
  NotamAnswer.provider a ∈ provider_tags.
Proof.
  unfold route_ai_notam.
  destruct (notam_args r) as [params | [[q icao] k]].
  - discriminate.
  - rewrite get_notam_answer_constant. intros Ha. inversion Ha; subst a.
    apply (bool_decide_unpack _). vm_compute. exact I.
Qed.

(** The answer about ZZZZ carries a known provider tag. *)
Lemma provider_is_a_known_tag_witness :
  NotamAnswer.provider
    (default (NotamAnswer.mk "" [] [] "")
       (returned (route_ai_notam query_zzzz world0))) ∈ provider_tags.
Proof.
  apply (provider_is_a_known_tag query_zzzz world0). reflexivity.
Defined.

(** C7. In a request to the NOTAM route, leaving out the airport code is
    the same as sending ["EGLL"], and leaving out [k] is the same as
    sending 5: a request with only a question calls the handler with
    (question, ["EGLL"], 5). The question is required: a request without
    it is rejected with status 422, naming [q], and the handler is not
    called. *)
Theorem notam_request_defaults :
  (∀ q k, notam_args (NotamQuery.mk (Some q) None k) =
          notam_args (NotamQuery.mk (Some q) (Some "EGLL") k))
  ∧ (∀ q icao, notam_args (NotamQuery.mk (Some q) icao None) =
               notam_args (NotamQuery.mk (Some q) icao (Some (IntText 5))))
  ∧ (∀ q, notam_args (NotamQuery.mk (Some q) None None) = inr (q, "EGLL", 5))
  ∧ (∀ icao k w,
       (∃ params, route_ai_notam (NotamQuery.mk None icao k) w =
                    (Raised (RequestValidationError params), w)
                  ∧ "q" ∈ params)
       ∧ status (route_ai_notam (NotamQuery.mk None icao k) w) = 422).
Proof.
  split; [ | split; [ | split]].
  - intros q k. reflexivity.
  - intros q icao. reflexivity.
  - intros q. reflexivity.
  - intros icao k w. split; [ | reflexivity].
    eexists. split; [reflexivity | apply list_elem_of_here].
Qed.

(** C8, as the claim states it, fails: a request whose [k] is 0, outside
    the range 1 to 20, is not rejected as a client error (it is
    answered). *)
Lemma k_zero_is_not_rejected :
  ¬ k_in_range 0
  ∧ NotamQuery.k query_k_zero = Some (IntText 0)
  ∧ ¬ client_error (status (route_ai_notam query_k_zero world0)).
Proof.
  unfold k_in_range, client_error. split; [lia | split; [reflexivity | ]].
  vm_compute. intros [H _]. apply H. reflexivity.
Qed.

(** C8, amended. A request to the NOTAM route is rejected as a client
    error (status 422, nothing retried, the handler not called and the
    world unchanged) if and only if the required question is missing or the
    text of [k] is not an integer; every other request, whatever the
    integer value of [k], is answered with status 200. *)
Theorem notam_rejected_iff_ill_formed (r : NotamQuery.t) (w : World) :
  (client_error (status (route_ai_notam r w)) <-> ill_formed r)
  ∧ (ill_formed r ->
     ∃ params, route_ai_notam r w = (Raised (RequestValidationError params), w))
  ∧ (¬ ill_formed r -> status (route_ai_notam r w) = 200).
Proof.
  destruct (notam_args r) as [params | [[q icao] k]] eqn:E.
  - assert (Hill : ill_formed r) by (apply notam_args_ill_formed; eauto).
    rewrite (route_ai_notam_rejected _ _ _ E).
    split; [ | split].
    + split; [intros _; exact Hill | intros _; unfold client_error, status; simpl; lia].
    + intros _. eexists. reflexivity.
    + intros Hn. contradiction.
  - assert (Hok : ¬ ill_formed r).
    { intros Hill. apply notam_args_ill_formed in Hill as [params Hp].
      congruence. }
    rewrite (route_ai_notam_well_formed _ _ _ _ _ E).
    split; [ | split].
    + split; [ | intros Hill; contradiction].
      unfold client_error, status. rewrite get_notam_answer_constant. simpl. lia.
    + intros Hill. contradiction.
    + intros _. reflexivity.
Qed.

(** A request whose [k] reads "five" is rejected; one whose [k] is 0 is
    answered. *)
Lemma notam_rejected_iff_ill_formed_witness :
  client_error (status (route_ai_notam query_k_text world0))
  ∧ status (route_ai_notam query_k_zero world0) = 200.
Proof.
  split.
  - apply (proj2 (proj1 (notam_rejected_iff_ill_formed query_k_text world0))).
    right. exists "five". reflexivity.
  - apply (proj2 (proj2 (notam_rejected_iff_ill_formed query_k_zero world0))).
    intros [H | [t H]]; discriminate.
Defined.

(** * Further properties of the handlers *)

(** closed membership and equality facts on string literals *)
Ltac decide_closed := apply (bool_decide_unpack _); vm_compute; exact I.

(** ** POST /ai/intent: when it succeeds and what it answers *)

Lemma body_world request w : snd (post_intent_body request w) = w.
Proof.
  unfold post_intent_body, bind, ret, raise.
  repeat match goal with
         | |- context [if ?b then _ else _] => destruct b
         end; reflexivity.
Qed.

(** The body on a request that passes both checks: the response it
    returns, with the target each group of actions maps to. *)
Lemma body_success request w :
  IntentRequest.action request ∈ valid_actions ->
  (IntentRequest.action request = "set_layer" ->
   from_option (fun s => Py.startswith s "buildings:") false
     (IntentRequest.target request) = true) ->
  ∃ mt : option string,
    post_intent_body request w =
      (Returned
         {| IntentResponse.ok := true;
            IntentResponse.action := IntentRequest.action request;
            IntentResponse.mapped :=
              <["target" := Py.of_opt_str mt]>
                (<["speed" := Py.of_opt_float
                                (clamp_speed <$> IntentRequest.speed request)]> ∅) |},
       w)
    ∧ (IntentRequest.action request ∈ ["fly_to"; "orbit"] ->
       mt = if negb (Py.truthy (IntentRequest.target request))
               || negb (bool_decide
                          (Py.upper <$> IntentRequest.target request = Some "EGLL"))
            then Some "EGLL" else IntentRequest.target request)
    ∧ (IntentRequest.action request = "set_layer" ->
       mt = Py.lower <$> IntentRequest.target request)
    ∧ (IntentRequest.action request ∈ ["follow"; "chase"] ->
       mt = IntentRequest.target request).
Proof.
  intros Hvalid Hlayer. unfold post_intent_body, bind, ret, raise.
  rewrite bool_decide_eq_true_2 by exact Hvalid.
  assert (Hspeed :
    match IntentRequest.speed request with
    | Some s => Some (Py.max zero_f (Py.min thousand_f s))
    | None => None
    end = clamp_speed <$> IntentRequest.speed request)
    by (destruct (IntentRequest.speed request); reflexivity).
  rewrite Hspeed. clear Hspeed.
  destruct (bool_decide (IntentRequest.action request ∈ ["fly_to"; "orbit"]))
    eqn:Hfly.
  - apply bool_decide_eq_true_1 in Hfly.
    set (other := negb (Py.truthy (IntentRequest.target request))
                  || negb (bool_decide
                             (Py.upper <$> IntentRequest.target request = Some "EGLL"))).
    exists (if other then Some "EGLL" else IntentRequest.target request).
    split; [ | split; [ | split]].
    + destruct other; reflexivity.
    + intros _. reflexivity.
    + intros Ha. rewrite Ha in Hfly. exfalso. revert Hfly. decide_closed.
    + intros Ha. exfalso.
      apply elem_of_cons in Ha as [Ha | Ha];
        [ | apply list_elem_of_singleton in Ha];
        rewrite Ha in Hfly; revert Hfly; decide_closed.
  - apply bool_decide_eq_false_1 in Hfly.
    destruct (bool_decide (IntentRequest.action request = "set_layer")) eqn:Hset.
    + apply bool_decide_eq_true_1 in Hset. specialize (Hlayer Hset).
      assert (Ht : Py.truthy (IntentRequest.target request) = true).
      { destruct (IntentRequest.target request) as [[ | c t] | ];
          simpl in Hlayer; try discriminate; reflexivity. }
      rewrite Ht, Hlayer. simpl.
      eexists. split; [reflexivity | split; [ | split]].
      * intros Ha. contradiction.
      * intros _. reflexivity.
      * intros Ha. exfalso. rewrite Hset in Ha. revert Ha. decide_closed.
    + apply bool_decide_eq_false_1 in Hset.
      eexists. split; [reflexivity | split; [ | split]].
      * intros Ha. contradiction.
      * intros Ha. contradiction.
      * intros _. reflexivity.
Qed.

Lemma fly_orbit_valid a : a ∈ ["fly_to"; "orbit"] -> a ∈ valid_actions.
Proof. unfold valid_actions. rewrite !elem_of_cons, !elem_of_nil. tauto. Qed.

Lemma follow_chase_valid a : a ∈ ["follow"; "chase"] -> a ∈ valid_actions.
Proof. unfold valid_actions. rewrite !elem_of_cons, !elem_of_nil. tauto. Qed.

Lemma valid_action_groups a :
  a ∈ valid_actions ->
  a ∈ ["fly_to"; "orbit"] ∨ a = "set_layer" ∨ a ∈ ["follow"; "chase"].
Proof. unfold valid_actions. rewrite !elem_of_cons, !elem_of_nil. tauto. Qed.

(** A body that returns has passed both checks. *)
Lemma body_returned_inv request w resp w' :
  post_intent_body request w = (Returned resp, w') ->
  IntentRequest.action request ∈ valid_actions
  ∧ (IntentRequest.action request = "set_layer" ->
     from_option (fun s => Py.startswith s "buildings:") false
       (IntentRequest.target request) = true).
Proof.
  intros E. split.
  - destruct (decide (IntentRequest.action request ∈ valid_actions)) as [H | H];
      [exact H | ].
    rewrite (body_invalid_action request w H) in E. discriminate.
  - intros Ha.
    destruct (from_option (fun s => Py.startswith s "buildings:") false
                (IntentRequest.target request)) eqn:Ht; [reflexivity | ].
    rewrite (body_bad_layer request w Ha Ht) in E. discriminate.
Qed.

Lemma post_intent_returned_inv request w resp :
  returned (post_intent request w) = Some resp ->
  post_intent_body request w = (Returned resp, w).
Proof.
  intros Hret. pose proof (body_world request w) as Hw.
  destruct (post_intent_body request w) as [[resp' | e] w'] eqn:E.
  - rewrite (post_intent_on_return _ _ _ _ E) in Hret.
    unfold returned in Hret. simpl in *. congruence.
  - rewrite (post_intent_on_raise _ _ _ _ E) in Hret. discriminate.
Qed.

(** X1. [post_intent] answers 200 or 500 and nothing else; it answers
    200 exactly when the action is one of the five valid ones and, for
    [set_layer], the target starts with ["buildings:"]. *)
Theorem post_intent_succeeds_iff (request : IntentRequest.t) (w : World) :
  (status (post_intent request w) = 200 ∨ status (post_intent request w) = 500)
  ∧ (status (post_intent request w) = 200 <->
     IntentRequest.action request ∈ valid_actions
     ∧ (IntentRequest.action request = "set_layer" ->
        from_option (fun s => Py.startswith s "buildings:") false
          (IntentRequest.target request) = true)).
Proof.
  destruct (post_intent_body request w) as [[resp | e] w'] eqn:E.
  - rewrite (post_intent_on_return _ _ _ _ E).
    split; [left; reflexivity | ].
    split; [intros _; exact (body_returned_inv _ _ _ _ E) | reflexivity].
  - rewrite (post_intent_on_raise _ _ _ _ E).
    split; [right; reflexivity | ].
    split; [discriminate | ].
    intros [Hv Hl]. destruct (body_success request w Hv Hl) as (mt & Hb & _).
    congruence.
Qed.

(** A [set_layer] request for another layer is not answered 200. *)
Lemma post_intent_succeeds_iff_witness :
  status (post_intent
            (IntentRequest.mk "set_layer" (Some "terrain:on") None) world0) ≠ 200.
Proof.
  intros H.
  apply (proj1 (proj2 (post_intent_succeeds_iff
                         (IntentRequest.mk "set_layer" (Some "terrain:on") None)
                         world0))) in H.
  destruct H as [_ H]. specialize (H eq_refl). discriminate H.
Defined.

(** X2. When [post_intent] succeeds it leaves the world as it found it
    (nothing is logged), the response has [ok = True] and repeats the
    action of the request, and its [mapped] dictionary has exactly the keys
    ["target"] and ["speed"]. *)
Theorem post_intent_success_shape (request : IntentRequest.t) (w : World)
    (resp : IntentResponse.t) :
  returned (post_intent request w) = Some resp ->
  snd (post_intent request w) = w
  ∧ IntentResponse.ok resp = true
  ∧ IntentResponse.action resp = IntentRequest.action request
  ∧ dom (IntentResponse.mapped resp) = ({["target"; "speed"]} : gset string).
Proof.
  intros Hret. apply post_intent_returned_inv in Hret.
  rewrite (post_intent_on_return _ _ _ _ Hret).
  destruct (body_returned_inv _ _ _ _ Hret) as [Hv Hl].
  destruct (body_success request w Hv Hl) as (mt & Hb & _).
  rewrite Hb in Hret. inversion Hret; subst resp. simpl.
  split; [reflexivity | split; [reflexivity | split; [reflexivity | ]]].
  rewrite !dom_insert_L, dom_empty_L. set_solver.
Qed.

Lemma post_intent_success_shape_witness :
  snd (post_intent intent_follow world0) = world0
  ∧ IntentResponse.ok intent_follow_response = true
  ∧ IntentResponse.action intent_follow_response = "follow"
  ∧ dom (IntentResponse.mapped intent_follow_response)
    = ({["target"; "speed"]} : gset string).
Proof.
  apply (post_intent_success_shape intent_follow world0 intent_follow_response).
  vm_compute. reflexivity.
Defined.

(** X3. When [post_intent] fails, exactly one message is appended to
    the log, after the messages already there: the text
    ["Intent processing error: "] followed by the rendering of the exception
    the body of the handler raised, however the framework renders
    exceptions. That exception is the 422 when the action is invalid and the
    400 (bad [set_layer] target) otherwise. The clock is not touched. *)
Theorem post_intent_failure_logged (request : IntentRequest.t) (w : World)
    (e : exn) (render : exn -> string) :
  fst (post_intent request w) = Raised e ->
  ∃ cause : exn,
    fst (post_intent_body request w) = Raised cause
    ∧ (IntentRequest.action request ∉ valid_actions ->
       cause = HTTPException 422
                 ("Invalid action: " +:+ IntentRequest.action request))
    ∧ (IntentRequest.action request ∈ valid_actions ->
       cause = HTTPException 400
                 "set_layer requires target like 'buildings:on'")
    ∧ utcnow_iso (snd (post_intent request w)) = utcnow_iso w
    ∧ log_message render <$> log (snd (post_intent request w))
      = ((log_message render <$> log w)
          ++ ["Intent processing error: " +:+ render cause])%list.
Proof.
  intros He. pose proof (body_world request w) as Hw.
  destruct (post_intent_body request w) as [[resp | cause] w'] eqn:E.
  - rewrite (post_intent_on_return _ _ _ _ E) in He. discriminate.
  - simpl in Hw. subst w'. rewrite (post_intent_on_raise _ _ _ _ E).
    cbn [fst snd utcnow_iso log].
    exists cause. split; [reflexivity | ].
    split; [ | split; [ | split; [reflexivity | ]]].
    + intros Hv. rewrite (body_invalid_action request w Hv) in E. congruence.
    + intros Hv.
      destruct (decide (IntentRequest.action request = "set_layer")) as [Ha | Ha].
      * destruct (from_option (fun s => Py.startswith s "buildings:") false
                    (IntentRequest.target request)) eqn:Ht.
        -- destruct (body_success request w Hv (fun _ => Ht)) as (mt & Hb & _).
           congruence.
        -- rewrite (body_bad_layer request w Ha Ht) in E. congruence.
      * assert (Hl : IntentRequest.action request = "set_layer" ->
                     from_option (fun s => Py.startswith s "buildings:") false
                       (IntentRequest.target request) = true)
          by (intros Ha'; contradiction).
        destruct (body_success request w Hv Hl) as (mt & Hb & _). congruence.
    + rewrite fmap_app. reflexivity.
Qed.

(** An invalid action in a world whose log holds one record, with
    exceptions rendered as their detail text. *)
Lemma post_intent_failure_logged_witness :
  ∃ cause : exn,
    fst (post_intent_body (IntentRequest.mk "dance" None None) world1)
      = Raised cause
    ∧ ("dance" ∉ valid_actions ->
       cause = HTTPException 422 ("Invalid action: " +:+ "dance"))
    ∧ ("dance" ∈ valid_actions ->
       cause = HTTPException 400
                 "set_layer requires target like 'buildings:on'")
    ∧ utcnow_iso (snd (post_intent (IntentRequest.mk "dance" None None) world1))
      = utcnow_iso world1
    ∧ log_message
        (fun e => match e with HTTPException _ d => d | _ => "" end)
        <$> log (snd (post_intent (IntentRequest.mk "dance" None None) world1))
      = ((log_message
            (fun e => match e with HTTPException _ d => d | _ => "" end)
            <$> log world1)
           ++ ["Intent processing error: " +:+
               match cause with HTTPException _ d => d | _ => "" end])%list.
Proof.
  apply (post_intent_failure_logged (IntentRequest.mk "dance" None None) world1
           (HTTPException 500 "Intent processing failed")
           (fun e => match e with HTTPException _ d => d | _ => "" end)).
  reflexivity.
Defined.

(** ** Strings: case mapping *)

Lemma ascii_lower_idem c : Py.ascii_lower (Py.ascii_lower c) = Py.ascii_lower c.
Proof. destruct c as [[] [] [] [] [] [] [] []]; reflexivity. Qed.

Lemma ascii_upper_idem c : Py.ascii_upper (Py.ascii_upper c) = Py.ascii_upper c.
Proof. destruct c as [[] [] [] [] [] [] [] []]; reflexivity. Qed.

Lemma str_map_idem f s :
  (∀ c, f (f c) = f c) -> Py.str_map f (Py.str_map f s) = Py.str_map f s.
Proof.
  intros Hf. induction s as [ | c s IH]; simpl; [reflexivity | ].
  now rewrite Hf, IH.
Qed.

Lemma lower_idem s : Py.lower (Py.lower s) = Py.lower s.
Proof. apply str_map_idem, ascii_lower_idem. Qed.

Lemma upper_idem s : Py.upper (Py.upper s) = Py.upper s.
Proof. apply str_map_idem, ascii_upper_idem. Qed.

(** A prefix stays a prefix when both strings are mapped. *)
Lemma prefix_str_map f p s :
  String.prefix p s = true ->
  String.prefix (Py.str_map f p) (Py.str_map f s) = true.
Proof.
  revert s. induction p as [ | a p IH]; intros s H.
  - destruct s; reflexivity.
  - destruct s as [ | b s]; simpl in H; [discriminate | ].
    destruct (ascii_dec a b) as [-> | Hne]; [ | discriminate].
    simpl. destruct (ascii_dec (f b) (f b)) as [_ | Hne]; [ | contradiction].
    now apply IH.
Qed.

Lemma startswith_lower s :
  Py.startswith s "buildings:" = true ->
  Py.startswith (Py.lower s) "buildings:" = true.
Proof.
  intros H. unfold Py.startswith, Py.lower.
  exact (prefix_str_map Py.ascii_lower "buildings:" s H).
Qed.

(** ** POST /ai/intent: the mapped target *)

Lemma mapped_target_insert (mt : option string) (v : Py.val)
    (ok : bool) (a : string) :
  mapped_target
    {| IntentResponse.ok := ok; IntentResponse.action := a;
       IntentResponse.mapped :=
         <["target" := Py.of_opt_str mt]> (<["speed" := v]> ∅) |} = mt.
Proof.
  unfold mapped_target. simpl. rewrite lookup_insert_eq.
  destruct mt; reflexivity.
Qed.

Lemma mapped_speed_insert (v : Py.val) (ms : option spec_float)
    (ok : bool) (a : string) :
  mapped_speed
    {| IntentResponse.ok := ok; IntentResponse.action := a;
       IntentResponse.mapped :=
         <["target" := v]> (<["speed" := Py.of_opt_float ms]> ∅) |} = ms.
Proof.
  unfold mapped_speed. simpl.
  rewrite lookup_insert_ne by discriminate. rewrite lookup_insert_eq.
  destruct ms; reflexivity.
Qed.

(** X4. [fly_to] and [orbit] always succeed, whatever the target.
    When the request names EGLL in some letter case, the mapped target is
    the target exactly as the request wrote it (the case is not normalised);
    in every other case, a missing or empty target included, the mapped
    target is ["EGLL"]. Either way the mapped target is EGLL up to letter
    case. *)
Theorem fly_to_orbit_target (request : IntentRequest.t) (w : World) :
  IntentRequest.action request ∈ ["fly_to"; "orbit"] ->
  ∃ resp : IntentResponse.t,
    post_intent request w = (Returned resp, w)
    ∧ (∀ t, IntentRequest.target request = Some t -> Py.upper t = "EGLL" ->
            mapped_target resp = Some t)
    ∧ ((∀ t, IntentRequest.target request = Some t -> Py.upper t ≠ "EGLL") ->
       mapped_target resp = Some "EGLL")
    ∧ ∃ t, mapped_target resp = Some t ∧ Py.upper t = "EGLL".
Proof.
  intros Hfly.
  assert (Hl : IntentRequest.action request = "set_layer" ->
               from_option (fun s => Py.startswith s "buildings:") false
                 (IntentRequest.target request) = true).
  { intros Ha. exfalso. rewrite Ha in Hfly. revert Hfly. decide_closed. }
  destruct (body_success request w (fly_orbit_valid _ Hfly) Hl)
    as (mt & Hb & Hmt & _).
  specialize (Hmt Hfly). rewrite (post_intent_on_return _ _ _ _ Hb).
  eexists. split; [reflexivity | ].
  rewrite mapped_target_insert.
  destruct (negb (Py.truthy (IntentRequest.target request))
            || negb (bool_decide
                       (Py.upper <$> IntentRequest.target request = Some "EGLL")))
    eqn:Hother; subst mt.
  - split; [ | split; [intros _; reflexivity | exists "EGLL"; now split]].
    intros t Ht Hup. exfalso. rewrite Ht in Hother. simpl in Hother.
    rewrite Hup in Hother.
    rewrite (bool_decide_eq_true_2 _ eq_refl) in Hother.
    destruct t as [ | c t]; [discriminate Hup | discriminate Hother].
  - apply orb_false_elim in Hother as [_ Hup].
    apply negb_false_iff, bool_decide_eq_true_1 in Hup.
    destruct (IntentRequest.target request) as [t0 | ] eqn:Ht; [ | discriminate].
    simpl in Hup. injection Hup as Hup'.
    split; [ | split; [ | exists t0; now split]].
    + intros t [= <-] _. reflexivity.
    + intros Hne. exfalso. exact (Hne t0 eq_refl Hup').
Qed.

(** A [fly_to] request for ["egll"] keeps the lower-case spelling. *)
Lemma fly_to_orbit_target_witness :
  ∃ resp : IntentResponse.t,
    post_intent intent_fly_lower world0 = (Returned resp, world0)
    ∧ mapped_target resp = Some "egll".
Proof.
  destruct (fly_to_orbit_target intent_fly_lower world0) as (resp & Hr & Hsame & _).
  - decide_closed.
  - exists resp. split; [exact Hr | ].
    apply (Hsame "egll"); reflexivity.
Defined.

(** X5. A [set_layer] request whose target starts with ["buildings:"]
    succeeds; its mapped target still starts with ["buildings:"] and
    lower-casing it again changes nothing. When the target is ASCII text,
    the mapped target is the target with its letters A to Z turned into
    a to z. *)
Theorem set_layer_target (request : IntentRequest.t) (w : World) (t : string) :
  IntentRequest.action request = "set_layer" ->
  IntentRequest.target request = Some t ->
  Py.startswith t "buildings:" = true ->
  ∃ (resp : IntentResponse.t) (m : string),
    post_intent request w = (Returned resp, w)
    ∧ mapped_target resp = Some m
    ∧ Py.startswith m "buildings:" = true
    ∧ Py.lower m = m
    ∧ (PyStr.is_ascii t = true -> m = Py.lower t).
Proof.
  intros Ha Ht Hs.
  assert (Hv : IntentRequest.action request ∈ valid_actions)
    by (rewrite Ha; decide_closed).
  assert (Hl : IntentRequest.action request = "set_layer" ->
               from_option (fun s => Py.startswith s "buildings:") false
                 (IntentRequest.target request) = true)
    by (intros _; rewrite Ht; exact Hs).
  destruct (body_success request w Hv Hl) as (mt & Hb & _ & Hmt & _).
  specialize (Hmt Ha). rewrite Ht in Hmt. simpl in Hmt. subst mt.
  rewrite (post_intent_on_return _ _ _ _ Hb).
  eexists. exists (Py.lower t). split; [reflexivity | ].
  rewrite mapped_target_insert.
  split; [reflexivity | ].
  split; [now apply startswith_lower | ].
  split; [apply lower_idem | intros _; reflexivity].
Qed.

(** The target ["buildings:ON"] is mapped to ["buildings:on"]. *)
Lemma set_layer_target_witness :
  ∃ (resp : IntentResponse.t) (m : string),
    post_intent intent_layer world0 = (Returned resp, world0)
    ∧ mapped_target resp = Some m
    ∧ Py.startswith m "buildings:" = true
    ∧ Py.lower m = m
    ∧ (PyStr.is_ascii "buildings:ON" = true -> m = "buildings:on").
Proof.
  apply (set_layer_target intent_layer world0 "buildings:ON");
    reflexivity.
Defined.

(** X6. [follow] and [chase] always succeed and pass the target
    through as the request gave it, a missing target included. *)
Theorem follow_chase_target (request : IntentRequest.t) (w : World) :
  IntentRequest.action request ∈ ["follow"; "chase"] ->
  ∃ resp : IntentResponse.t,
    post_intent request w = (Returned resp, w)
    ∧ mapped_target resp = IntentRequest.target request.
Proof.
  intros Hfc.
  assert (Hl : IntentRequest.action request = "set_layer" ->
               from_option (fun s => Py.startswith s "buildings:") false
                 (IntentRequest.target request) = true).
  { intros Ha. exfalso. rewrite Ha in Hfc. revert Hfc. decide_closed. }
  destruct (body_success request w (follow_chase_valid _ Hfc) Hl)
    as (mt & Hb & _ & _ & Hmt).
  specialize (Hmt Hfc). subst mt.
  rewrite (post_intent_on_return _ _ _ _ Hb).
  eexists. split; [reflexivity | apply mapped_target_insert].
Qed.

Lemma follow_chase_target_witness :
  ∃ resp : IntentResponse.t,
    post_intent intent_chase world0 = (Returned resp, world0)
    ∧ mapped_target resp = None.
Proof.
  apply (follow_chase_target intent_chase world0). decide_closed.
Defined.

(** ** POST /ai/intent: the mapped speed and resubmission *)

Lemma clamp_speed_idem s : clamp_speed (clamp_speed s) = clamp_speed s.
Proof.
  unfold clamp_speed.
  destruct (clamp_cases s) as [(_ & _ & Hr) | [(_ & _ & Hr) | (_ & Hr)]];
    cbv zeta in Hr; rewrite Hr; [exact Hr | reflexivity | reflexivity].
Qed.

(** X7. The mapping of [post_intent] is idempotent: sending the mapped
    target and the mapped speed of a successful response back under the
    same action succeeds, in any world, with the very same response. *)
Theorem post_intent_resubmit (request : IntentRequest.t) (w w' : World)
    (resp : IntentResponse.t) :
  returned (post_intent request w) = Some resp ->
  post_intent (resubmit resp) w' = (Returned resp, w').
Proof.
  intros Hret. apply post_intent_returned_inv in Hret.
  destruct (body_returned_inv _ _ _ _ Hret) as [Hv Hl].
  destruct (body_success request w Hv Hl) as (mt & Hb & Hfly & Hset & Hfc).
  rewrite Hb in Hret. injection Hret as <-.
  unfold resubmit. rewrite mapped_target_insert, mapped_speed_insert. simpl.
  set (request' :=
         {| IntentRequest.action := IntentRequest.action request;
            IntentRequest.target := mt;
            IntentRequest.speed := clamp_speed <$> IntentRequest.speed request |}).
  assert (Hl' : IntentRequest.action request' = "set_layer" ->
                from_option (fun s => Py.startswith s "buildings:") false
                  (IntentRequest.target request') = true).
  { simpl. intros Ha. rewrite (Hset Ha). specialize (Hl Ha).
    destruct (IntentRequest.target request) as [t | ]; [ | discriminate].
    simpl in *. now apply startswith_lower. }
  destruct (body_success request' w' Hv Hl') as (mt2 & Hb2 & Hfly2 & Hset2 & Hfc2).
  rewrite (post_intent_on_return _ _ _ _ Hb2). simpl in *.
  assert (Hmt : mt2 = mt).
  { destruct (valid_action_groups _ Hv) as [Hg | [Hg | Hg]].
    - rewrite (Hfly2 Hg). specialize (Hfly Hg).
      destruct (negb (Py.truthy (IntentRequest.target request))
                || negb (bool_decide
                           (Py.upper <$> IntentRequest.target request = Some "EGLL")))
        eqn:Hother.
      + subst mt. reflexivity.
      + subst mt. rewrite Hother. reflexivity.
    - rewrite (Hset2 Hg), (Hset Hg).
      destruct (IntentRequest.target request) as [t | ]; simpl;
        [now rewrite lower_idem | reflexivity].
    - now rewrite (Hfc2 Hg). }
  assert (Hsp : clamp_speed <$> (clamp_speed <$> IntentRequest.speed request)
                = clamp_speed <$> IntentRequest.speed request).
  { destruct (IntentRequest.speed request) as [s | ]; simpl;
      [now rewrite clamp_speed_idem | reflexivity]. }
  rewrite Hmt, Hsp. reflexivity.
Qed.

Lemma post_intent_resubmit_witness :
  post_intent (resubmit intent_follow_response) world1
  = (Returned intent_follow_response, world1).
Proof.
  apply (post_intent_resubmit intent_follow world0 world1 intent_follow_response).
  vm_compute. reflexivity.
Defined.

(** X8. How [post_intent] maps a speed [s], by comparison with the
    bounds: a speed strictly between 0.0 and 1000.0 is passed unchanged; a
    speed that is not below 1000.0 (1000.0 and above, plus infinity, and NaN,
    for which every comparison is false) becomes 1000.0; a speed below 1000.0
    that is not above 0.0 (zero of either sign, the negatives, minus
    infinity) becomes 0.0. *)
Theorem post_intent_speed_cases (request : IntentRequest.t) (w : World)
    (resp : IntentResponse.t) (s : spec_float) :
  returned (post_intent request w) = Some resp ->
  IntentRequest.speed request = Some s ->
  (Py.flt zero_f s = true -> Py.flt s thousand_f = true ->
   mapped_speed resp = Some s)
  ∧ (Py.flt s thousand_f = false -> mapped_speed resp = Some thousand_f)
  ∧ (Py.flt s thousand_f = true -> Py.flt zero_f s = false ->
     mapped_speed resp = Some zero_f).
Proof.
  intros Hret Hs. apply post_intent_returned_inv in Hret.
  destruct (body_returned_inv _ _ _ _ Hret) as [Hv Hl].
  destruct (body_success request w Hv Hl) as (mt & Hb & _).
  rewrite Hb in Hret. injection Hret as <-.
  rewrite mapped_speed_insert, Hs. simpl. unfold clamp_speed.
  destruct (clamp_cases s) as [(H1 & H2 & Hr) | [(H1 & H2 & Hr) | (H1 & Hr)]];
    cbv zeta in Hr; rewrite Hr;
    (split; [ | split]); intros; congruence.
Qed.

(** A NaN speed on a [set_layer] request is mapped to 1000.0. *)
Lemma post_intent_speed_cases_witness :
  mapped_speed
    (default intent_follow_response (returned (post_intent intent_layer world0)))
  = Some thousand_f.
Proof.
  apply (proj1 (proj2
    (post_intent_speed_cases intent_layer world0
       (default intent_follow_response (returned (post_intent intent_layer world0)))
       S754_nan eq_refl eq_refl))).
  reflexivity.
Defined.

(** ** GET /health and GET /weather/metar *)

Lemma append_Z_inj s1 s2 : s1 +:+ "Z" = s2 +:+ "Z" -> s1 = s2.
Proof.
  revert s2. induction s1 as [ | c s1 IH]; intros [ | d s2] H; simpl in H.
  - reflexivity.
  - injection H as _ H. destruct s2; discriminate.
  - injection H as _ H. destruct s1; discriminate.
  - injection H as -> H. f_equal. now apply IH.
Qed.

(** X9. [health] always answers, without touching the world, with
    status ["ok"] and the reading of the clock followed by ["Z"]; two
    answers are equal exactly when the clocks read the same, whatever has
    been logged. *)
Theorem health_reports_the_clock (w1 w2 : World) :
  (∃ m : gmap string Py.val,
     health w1 = (Returned m, w1)
     ∧ m !! "status" = Some (Py.Str "ok")
     ∧ m !! "time" = Some (Py.Str (utcnow_iso w1 +:+ "Z")))
  ∧ (fst (health w1) = fst (health w2) <-> utcnow_iso w1 = utcnow_iso w2).
Proof.
  split.
  - eexists. split; [reflexivity | ].
    split; [apply lookup_insert_eq | ].
    rewrite lookup_insert_ne by discriminate. apply lookup_insert_eq.
  - assert (Hrun : ∀ w, fst (health w) =
                        Returned (<["status" := Py.Str "ok"]>
                                    (<["time" := Py.Str (utcnow_iso w +:+ "Z")]> ∅)))
      by reflexivity.
    rewrite !Hrun. split.
    + intros H.
      apply (f_equal (fun o : outcome (gmap string Py.val) =>
                        match o with
                        | Returned m => m !! "time"
                        | Raised _ => None
                        end)) in H.
      rewrite !(lookup_insert_ne _ "status" "time") in H by discriminate.
      rewrite !lookup_insert_eq in H. injection H as H.
      now apply append_Z_inj.
    + intros ->. reflexivity.
Qed.

Lemma get_metar_eq_iff a b w :
  get_metar a w = get_metar b w <-> Py.upper a = Py.upper b.
Proof.
  unfold get_metar, ret. split.
  - intros H. injection H as H. exact H.
  - intros ->. reflexivity.
Qed.

(** X10. [get_metar] always answers and leaves the world unchanged, and
    upper-casing the airport code of the response again changes nothing.
    For airport codes that are ASCII text, the code of the response is the
    argument with its letters a to z turned into A to Z, and two calls give
    the same response exactly when their codes agree up to letter case. *)
Theorem get_metar_case_insensitive (a b : string) (w : World) :
  (∃ resp : MetarResponse.t,
     get_metar a w = (Returned resp, w)
     ∧ Py.upper (MetarResponse.icao resp) = MetarResponse.icao resp
     ∧ (PyStr.is_ascii a = true -> MetarResponse.icao resp = Py.upper a))
  ∧ (PyStr.is_ascii a = true -> PyStr.is_ascii b = true ->
     (get_metar a w = get_metar b w <-> Py.upper a = Py.upper b)).
Proof.
  split.
  - eexists. split; [reflexivity | split; [apply upper_idem | ]].
    intros _. reflexivity.
  - intros _ _. apply get_metar_eq_iff.
Qed.

(** The codes ["egLc"] and ["EGLC"] get the same response. *)
Lemma get_metar_case_insensitive_witness :
  get_metar "egLc" world0 = get_metar "EGLC" world0.
Proof.
  apply (proj2 (get_metar_case_insensitive "egLc" "EGLC" world0));
    reflexivity.
Defined.

(** X11. The METAR route rejects no request: it answers 200 whether or
    not an airport code is sent and leaves the world unchanged; a request
    without a code gets the answer of a request for a code exactly when that
    code is EGLL in some letter case. *)
Theorem route_weather_metar_default (o : option string) (i : string) (w : World) :
  status (route_weather_metar o w) = 200
  ∧ snd (route_weather_metar o w) = w
  ∧ (route_weather_metar None w = route_weather_metar (Some i) w
     <-> Py.upper i = "EGLL").
Proof.
  split; [destruct o; reflexivity | split; [destruct o; reflexivity | ]].
  unfold route_weather_metar. simpl.
  rewrite (get_metar_eq_iff "EGLL" i w). change (Py.upper "EGLL") with "EGLL".
  split; intros E; symmetry; exact E.
Qed.

(** ** Strings: split, join and strip *)

Lemma split_nonempty sep s : PyStr.split sep s ≠ [].
Proof.
  destruct s as [ | c s]; simpl; [discriminate | ].
  destruct (Ascii.eqb c sep); [discriminate | ].
  destruct (PyStr.split sep s); discriminate.
Qed.

Lemma split_length sep s :
  length (PyStr.split sep s) = S (PyStr.count sep s).
Proof.
  induction s as [ | c s IH]; simpl; [reflexivity | ].
  destruct (Ascii.eqb c sep); simpl.
  - now rewrite IH.
  - destruct (PyStr.split sep s) as [ | piece rest]; simpl in *;
      [discriminate | exact IH].
Qed.

Lemma split_no_sep sep s p :
  p ∈ PyStr.split sep s -> PyStr.count sep p = O.
Proof.
  revert p. induction s as [ | c s IH]; intros p Hp; simpl in Hp.
  - apply list_elem_of_singleton in Hp. now subst p.
  - destruct (Ascii.eqb c sep) eqn:Hc.
    + apply elem_of_cons in Hp as [-> | Hp]; [reflexivity | now apply IH].
    + destruct (PyStr.split sep s) as [ | piece rest].
      * apply list_elem_of_singleton in Hp. subst p. simpl. now rewrite Hc.
      * apply elem_of_cons in Hp as [-> | Hp].
        -- simpl. rewrite Hc. apply IH. apply list_elem_of_here.
        -- apply IH. now apply list_elem_of_further.
Qed.

Lemma split_single sep s : PyStr.count sep s = O -> PyStr.split sep s = [s].
Proof.
  induction s as [ | c s IH]; simpl; [reflexivity | ].
  destruct (Ascii.eqb c sep); simpl; [discriminate | ].
  intros H. now rewrite (IH H).
Qed.

Lemma join_cons_char sep c piece rest :
  PyStr.join sep (String c piece :: rest)
  = String c (PyStr.join sep (piece :: rest)).
Proof. destruct rest; reflexivity. Qed.

(** Joining the pieces of a split gives the string back. *)
Lemma join_split sep s : PyStr.join sep (PyStr.split sep s) = s.
Proof.
  induction s as [ | c s IH]; [reflexivity | ].
  cbn [PyStr.split]. destruct (Ascii.eqb c sep) eqn:Hc.
  - apply Ascii.eqb_eq in Hc. subst c.
    pose proof (split_nonempty sep s) as Hne.
    destruct (PyStr.split sep s) as [ | piece rest]; [contradiction | ].
    change (PyStr.join sep (EmptyString :: piece :: rest))
      with (String sep (PyStr.join sep (piece :: rest))).
    now rewrite IH.
  - pose proof (split_nonempty sep s) as Hne.
    destruct (PyStr.split sep s) as [ | piece rest]; [contradiction | ].
    rewrite join_cons_char, IH. reflexivity.
Qed.

Lemma first_lstrip s ch :
  PyStr.first (PyStr.lstrip s) = Some ch -> PyStr.is_space ch = false.
Proof.
  induction s as [ | c s IH]; simpl; [discriminate | ].
  destruct (PyStr.is_space c) eqn:Hc; [exact IH | ].
  simpl. intros [= <-]. exact Hc.
Qed.

Lemma first_rstrip s ch :
  PyStr.first (PyStr.rstrip s) = Some ch -> PyStr.first s = Some ch.
Proof.
  destruct s as [ | c s]; simpl; [discriminate | ].
  destruct (PyStr.rstrip s); [destruct (PyStr.is_space c) | ]; simpl;
    congruence.
Qed.

Lemma last_cons c d s :
  PyStr.last (String c (String d s)) = PyStr.last (String d s).
Proof. reflexivity. Qed.

Lemma last_rstrip s ch :
  PyStr.last (PyStr.rstrip s) = Some ch -> PyStr.is_space ch = false.
Proof.
  induction s as [ | c s IH]; simpl; [discriminate | ].
  destruct (PyStr.rstrip s) as [ | d r].
  - destruct (PyStr.is_space c) eqn:Hc; simpl; [discriminate | ].
    intros [= <-]. exact Hc.
  - rewrite last_cons. exact IH.
Qed.

Lemma lstrip_id s :
  (∀ ch, PyStr.first s = Some ch -> PyStr.is_space ch = false) ->
  PyStr.lstrip s = s.
Proof.
  destruct s as [ | c s]; simpl; [reflexivity | ].
  intros H. now rewrite (H c eq_refl).
Qed.

Lemma rstrip_id s :
  (∀ ch, PyStr.last s = Some ch -> PyStr.is_space ch = false) ->
  PyStr.rstrip s = s.
Proof.
  induction s as [ | c s IH]; intros H; [reflexivity | ].
  cbn [PyStr.rstrip]. destruct s as [ | d s].
  - simpl. now rewrite (H c eq_refl).
  - rewrite IH by (intros ch Hch; apply H; now rewrite last_cons).
    reflexivity.
Qed.

Lemma count_lstrip c s :
  (PyStr.count c (PyStr.lstrip s) <= PyStr.count c s)%nat.
Proof.
  induction s as [ | d s IH]; simpl; [lia | ].
  destruct (PyStr.is_space d); simpl; lia.
Qed.

Lemma count_rstrip c s :
  (PyStr.count c (PyStr.rstrip s) <= PyStr.count c s)%nat.
Proof.
  induction s as [ | d s IH]; simpl; [lia | ].
  destruct (PyStr.rstrip s) as [ | e r].
  - destruct (PyStr.is_space d); simpl in *; lia.
  - simpl in *. lia.
Qed.

(** A stripped string has no whitespace at either end, and stripping
    it again changes nothing. *)
Lemma strip_ends s :
  (∀ ch, PyStr.first (PyStr.strip s) = Some ch -> PyStr.is_space ch = false)
  ∧ (∀ ch, PyStr.last (PyStr.strip s) = Some ch -> PyStr.is_space ch = false)
  ∧ PyStr.strip (PyStr.strip s) = PyStr.strip s.
Proof.
  assert (Hfirst : ∀ ch, PyStr.first (PyStr.strip s) = Some ch ->
                         PyStr.is_space ch = false).
  { intros ch H. apply first_rstrip in H. now apply first_lstrip in H. }
  assert (Hlast : ∀ ch, PyStr.last (PyStr.strip s) = Some ch ->
                        PyStr.is_space ch = false)
    by (intros ch H; now apply last_rstrip in H).
  split; [exact Hfirst | split; [exact Hlast | ]].
  unfold PyStr.strip at 1. rewrite (lstrip_id _ Hfirst). now apply rstrip_id.
Qed.

Lemma no_space_strip s : PyStr.no_space s = true -> PyStr.strip s = s.
Proof.
  intros H. unfold PyStr.strip.
  assert (Hl : PyStr.lstrip s = s).
  { destruct s as [ | c s]; simpl in *; [reflexivity | ].
    apply andb_true_iff in H as [Hc _]. apply negb_true_iff in Hc.
    now rewrite Hc. }
  rewrite Hl. clear Hl. induction s as [ | c s IH]; [reflexivity | ].
  simpl in H. apply andb_true_iff in H as [Hc Hs].
  apply negb_true_iff in Hc. cbn [PyStr.rstrip]. rewrite (IH Hs).
  destruct s; [now rewrite Hc | reflexivity].
Qed.

Lemma split_no_space sep s p :
  PyStr.no_space s = true -> p ∈ PyStr.split sep s -> PyStr.no_space p = true.
Proof.
  revert p. induction s as [ | c s IH]; intros p Hs Hp; simpl in Hp.
  - apply list_elem_of_singleton in Hp. now subst p.
  - simpl in Hs. apply andb_true_iff in Hs as [Hc Hs].
    destruct (Ascii.eqb c sep).
    + apply elem_of_cons in Hp as [-> | Hp]; [reflexivity | now apply IH].
    + destruct (PyStr.split sep s) as [ | piece rest].
      * apply list_elem_of_singleton in Hp. subst p. simpl. now rewrite Hc.
      * apply elem_of_cons in Hp as [-> | Hp].
        -- simpl. rewrite Hc. apply IH; [exact Hs | apply list_elem_of_here].
        -- apply IH; [exact Hs | now apply list_elem_of_further].
Qed.

Lemma fmap_fixed {A} (f : A -> A) (l : list A) :
  (∀ x, x ∈ l -> f x = x) -> f <$> l = l.
Proof.
  induction l as [ | x l IH]; intros H; [reflexivity | ].
  rewrite fmap_cons. rewrite (H x) by apply list_elem_of_here.
  rewrite IH; [reflexivity | ].
  intros y Hy. apply H. now apply list_elem_of_further.
Qed.

Lemma is_ascii_lstrip s :
  PyStr.is_ascii s = true -> PyStr.is_ascii (PyStr.lstrip s) = true.
Proof.
  induction s as [ | c s IH]; simpl; [reflexivity | ].
  intros H. pose proof H as H'. apply andb_true_iff in H as [_ Hs].
  destruct (PyStr.is_space c); [now apply IH | exact H'].
Qed.

Lemma is_ascii_rstrip s :
  PyStr.is_ascii s = true -> PyStr.is_ascii (PyStr.rstrip s) = true.
Proof.
  induction s as [ | c s IH]; simpl; [reflexivity | ].
  intros H. apply andb_true_iff in H as [Hc Hs]. specialize (IH Hs).
  destruct (PyStr.rstrip s) as [ | d r].
  - destruct (PyStr.is_space c); simpl; [reflexivity | now rewrite Hc].
  - cbn [PyStr.is_ascii]. rewrite Hc. exact IH.
Qed.

Lemma is_ascii_split sep s p :
  PyStr.is_ascii s = true -> p ∈ PyStr.split sep s -> PyStr.is_ascii p = true.
Proof.
  revert p. induction s as [ | c s IH]; intros p Hs Hp; simpl in Hp.
  - apply list_elem_of_singleton in Hp. now subst p.
  - simpl in Hs. apply andb_true_iff in Hs as [Hc Hs].
    destruct (Ascii.eqb c sep).
    + apply elem_of_cons in Hp as [-> | Hp]; [reflexivity | now apply IH].
    + destruct (PyStr.split sep s) as [ | piece rest].
      * apply list_elem_of_singleton in Hp. subst p. simpl. now rewrite Hc.
      * apply elem_of_cons in Hp as [-> | Hp].
        -- simpl. rewrite Hc. apply IH; [exact Hs | apply list_elem_of_here].
        -- apply IH; [exact Hs | now apply list_elem_of_further].
Qed.

(** ** [AppConfig]: the derived properties *)

Lemma cors_origins_star self :
  AppConfig.allow_origins self = "*" -> AppConfig.cors_origins self = ["*"].
Proof. intros H. unfold AppConfig.cors_origins. now rewrite H. Qed.

Lemma cors_origins_other self :
  AppConfig.allow_origins self ≠ "*" ->
  AppConfig.cors_origins self
  = PyStr.strip <$> PyStr.split "," (AppConfig.allow_origins self).
Proof.
  intros H. unfold AppConfig.cors_origins.
  destruct (String.eqb (AppConfig.allow_origins self) "*") eqn:E;
    [apply String.eqb_eq in E; contradiction | reflexivity].
Qed.

(** X12. [cors_origins] has one entry per comma-separated piece of
    [allow_origins], one more than there are commas: it is never empty, and
    empty pieces (an empty setting, a trailing comma) are kept as
    entries. *)
Theorem cors_origins_count (self : AppConfig.t) :
  length (AppConfig.cors_origins self)
  = S (PyStr.count "," (AppConfig.allow_origins self))
  ∧ AppConfig.cors_origins self ≠ [].
Proof.
  assert (Hlen : length (AppConfig.cors_origins self)
                 = S (PyStr.count "," (AppConfig.allow_origins self))).
  { destruct (decide (AppConfig.allow_origins self = "*")) as [E | E].
    - rewrite (cors_origins_star _ E), E. reflexivity.
    - rewrite (cors_origins_other _ E), length_fmap. apply split_length. }
  split; [exact Hlen | ].
  intros Hnil. rewrite Hnil in Hlen. discriminate.
Qed.

(** X13. Every entry of [cors_origins] contains no comma and neither
    begins nor ends with an ASCII whitespace character, so stripping it
    again changes nothing. When [allow_origins] is ASCII text, every entry
    is ASCII text too: it then has no whitespace of any kind at either
    end. *)
Theorem cors_origins_stripped (self : AppConfig.t) (o : string) :
  o ∈ AppConfig.cors_origins self ->
  (∀ ch, PyStr.first o = Some ch -> PyStr.is_space ch = false)
  ∧ (∀ ch, PyStr.last o = Some ch -> PyStr.is_space ch = false)
  ∧ PyStr.strip o = o
  ∧ PyStr.count "," o = O
  ∧ (PyStr.is_ascii (AppConfig.allow_origins self) = true ->
     PyStr.is_ascii o = true).
Proof.
  intros Ho.
  destruct (decide (AppConfig.allow_origins self = "*")) as [E | E].
  - rewrite (cors_origins_star _ E) in Ho.
    apply list_elem_of_singleton in Ho. subst o.
    split; [ | split; [ | split; [ | split]]]; try reflexivity;
      intros ch [= <-]; reflexivity.
  - rewrite (cors_origins_other _ E) in Ho.
    apply list_elem_of_fmap in Ho as (p & -> & Hp).
    destruct (strip_ends p) as (Hf & Hl & Hid).
    split; [exact Hf | split; [exact Hl | split; [exact Hid | split]]].
    + pose proof (split_no_sep _ _ _ Hp) as Hc.
      pose proof (count_rstrip "," (PyStr.lstrip p)) as H1.
      pose proof (count_lstrip "," p) as H2.
      unfold PyStr.strip. lia.
    + intros Ha. unfold PyStr.strip.
      apply is_ascii_rstrip, is_ascii_lstrip.
      exact (is_ascii_split _ _ _ Ha Hp).
Qed.

Lemma cors_origins_stripped_witness :
  (∀ ch, PyStr.first "https://a.example" = Some ch -> PyStr.is_space ch = false)
  ∧ (∀ ch, PyStr.last "https://a.example" = Some ch -> PyStr.is_space ch = false)
  ∧ PyStr.strip "https://a.example" = "https://a.example"
  ∧ PyStr.count "," "https://a.example" = O
  ∧ (PyStr.is_ascii (AppConfig.allow_origins config_two_origins) = true ->
     PyStr.is_ascii "https://a.example" = true).
Proof.
  apply (cors_origins_stripped config_two_origins "https://a.example").
  decide_closed.
Defined.

(** X14. When [allow_origins] is ASCII text and contains no comma,
    [cors_origins] is the single entry [allow_origins.strip()]; the
    wildcard ["*"] is one such case. *)
Theorem cors_origins_single (self : AppConfig.t) :
  PyStr.is_ascii (AppConfig.allow_origins self) = true ->
  PyStr.count "," (AppConfig.allow_origins self) = O ->
  AppConfig.cors_origins self = [PyStr.strip (AppConfig.allow_origins self)].
Proof.
  intros _ Hc.
  destruct (decide (AppConfig.allow_origins self = "*")) as [E | E].
  - rewrite (cors_origins_star _ E), E. reflexivity.
  - rewrite (cors_origins_other _ E), (split_single _ _ Hc). reflexivity.
Qed.

Lemma cors_origins_single_witness :
  AppConfig.cors_origins AppConfig.defaults
  = [PyStr.strip (AppConfig.allow_origins AppConfig.defaults)].
Proof.
  apply (cors_origins_single AppConfig.defaults); reflexivity.
Defined.

(** X15. When [allow_origins] is ASCII text and contains no whitespace,
    nothing is lost: joining the entries of [cors_origins] with commas
    gives [allow_origins] back. *)
Theorem cors_origins_join (self : AppConfig.t) :
  PyStr.is_ascii (AppConfig.allow_origins self) = true ->
  PyStr.no_space (AppConfig.allow_origins self) = true ->
  PyStr.join "," (AppConfig.cors_origins self) = AppConfig.allow_origins self.
Proof.
  intros _ Hs.
  destruct (decide (AppConfig.allow_origins self = "*")) as [E | E].
  - rewrite (cors_origins_star _ E), E. reflexivity.
  - rewrite (cors_origins_other _ E).
    rewrite fmap_fixed; [apply join_split | ].
    intros p Hp. apply no_space_strip. exact (split_no_space _ _ _ Hs Hp).
Qed.

Lemma cors_origins_join_witness :
  PyStr.join ","
    (AppConfig.cors_origins
       (AppConfig.mk "https://a.example,https://b.example" "awc" None None None
          "2024-08-01-preview" "gpt-4o" "text-embedding-3-small" "local" None
          "INFO"))
  = "https://a.example,https://b.example".
Proof.
  apply (cors_origins_join
           (AppConfig.mk "https://a.example,https://b.example" "awc" None None
              None "2024-08-01-preview" "gpt-4o" "text-embedding-3-small"
              "local" None "INFO"));
    reflexivity.
Defined.

(** X16. [has_aoai] holds exactly when both the endpoint and the API key
    are set and not empty, and [has_avwx] exactly when the AVWX key is set
    and not empty: an empty string counts as not configured. *)
Theorem has_aoai_has_avwx_iff (self : AppConfig.t) :
  (AppConfig.has_aoai self = true <->
   ∃ e k, AppConfig.aoai_endpoint self = Some e
          ∧ AppConfig.aoai_api_key self = Some k ∧ e ≠ "" ∧ k ≠ "")
  ∧ (AppConfig.has_avwx self = true <->
     ∃ k, AppConfig.avwx_api_key self = Some k ∧ k ≠ "").
Proof.
  assert (Ht : ∀ o, Py.truthy o = true <-> ∃ s, o = Some s ∧ s ≠ "").
  { intros [s | ]; simpl.
    - rewrite negb_true_iff, String.eqb_neq. split.
      + intros H. now exists s.
      + intros (s' & [= <-] & H). exact H.
    - split; [discriminate | intros (s & H & _); discriminate]. }
  split.
  - unfold AppConfig.has_aoai, AppConfig.and_.
    destruct (Py.truthy (AppConfig.aoai_endpoint self)) eqn:He.
    + apply Ht in He as (e & He & Hne). rewrite Ht, He. split.
      * intros (k & Hk & Hnk). exists e, k. auto.
      * intros (e' & k & _ & Hk & _ & Hnk). exists k. auto.
    + rewrite He. split; [discriminate | ].
      intros (e & k & Hee & _ & Hne & _).
      assert (Py.truthy (AppConfig.aoai_endpoint self) = true)
        by (apply Ht; eauto).
      congruence.
  - unfold AppConfig.has_avwx. apply Ht.
Qed.

Lemma has_aoai_has_avwx_iff_witness :
  AppConfig.has_aoai config_two_origins = true
  ∧ AppConfig.has_avwx config_two_origins ≠ true.
Proof.
  split.
  - apply (proj2 (proj1 (has_aoai_has_avwx_iff config_two_origins))).
    exists "https://aoai.example", "key".
    repeat split; discriminate.
  - intros H.
    apply (proj1 (proj2 (has_aoai_has_avwx_iff config_two_origins))) in H.
    destruct H as (k & Hk & Hne). injection Hk as <-. now apply Hne.
Defined.
